(** * The DBFOM wastewater model of [src/generate_model.py]

    The script fixes a set of financial assumptions, computes two level
    payments in Python for the summary documents, and writes a workbook
    whose sheets hold the monthly schedules as spreadsheet formulas.

    Three embeddings:
    - module [Py]: the module-level Python arithmetic ([Town_m], [pmt],
      [town_payment], ...) read over the real numbers, each binary64
      operation as the exact operation it rounds;
    - module [F64]: the same lines in binary64 as Python runs them, with
      the exceptions and special cases of its float operations;
    - module [Xl]: the cells of the workbook, each column a function of
      the sheet row, with the formula the script writes into it.

    [Py] and the numbers of [Xl] leave rounding, overflow and NaN out: what
    is proved on them holds of the running script where it is stated with
    a tolerance or on error values and zeros. What depends on rounding is
    stated on [F64]. *)

From Stdlib Require Import Reals Lra Lia ZArith String List Bool Arith.
From Stdlib Require Import Floats.
Import ListNotations.

Local Open Scope R_scope.

(** ** The assumptions block (lines 13-24) *)

Record Assumptions := mkAssumptions {
  BuildMonths : Z;
  OpsMonths   : Z;
  EPC         : R;
  OMBase      : R;
  Markup      : R;
  InflAnnual  : R;
  TownEAR     : R;
  DebtEAR     : R;
  TaxRate     : R;
  DebtFrac    : R;
  EquityFrac  : R
}.

(** The values the script is shipped with. *)
Definition base : Assumptions := {|
  BuildMonths := 24;
  OpsMonths   := 240;
  EPC         := 62000000;
  OMBase      := 325000;
  Markup      := 10 / 100;
  InflAnnual  := 2 / 100;
  TownEAR     := 675 / 10000;
  DebtEAR     := 4 / 100;
  TaxRate     := 265 / 1000;
  DebtFrac    := 60 / 100;
  EquityFrac  := 40 / 100
|}.

(** ** Python side, over the reals

    Where binary64 departs from this reading: [1 + r] rounds to 1.0 for
    [r] between -2^-54 and 2^-53, so that the code divides by zero where the exact
    denominator is positive; a large power overflows (OverflowError); a
    negative base under [** (1/12)] gives a complex number. Module [F64]
    has these. *)

Module Py.

(** The exceptions the arithmetic of lines 27-36 can raise. *)
Inductive exn := ZeroDivisionError.

Inductive result (A : Type) :=
| Ok (a : A)
| Raise (e : exn).
Arguments Ok {A} a.
Arguments Raise {A} e.

Definition bind {A B} (c : result A) (k : A -> result B) : result B :=
  match c with
  | Ok a => k a
  | Raise e => Raise e
  end.

Notation "x <- c ;; k" := (bind c (fun x => k))
  (at level 61, c at next level, right associativity).

(** [x ** k] for a float [x] and an int [k]: a zero base with a negative
    exponent raises. *)
Definition pow_int (x : R) (k : Z) : result R :=
  if Req_dec_T x 0 then
    (if (k <? 0)%Z then Raise ZeroDivisionError else Ok (powerRZ x k))
  else Ok (powerRZ x k).

(** [x / y] on floats. *)
Definition div (x y : R) : result R :=
  if Req_dec_T y 0 then Raise ZeroDivisionError else Ok (x / y).

(** [x ** (1/12)] for a positive base (lines 27-29). For a base that is
    not positive Python leaves this model (0.0 for a zero base, a complex
    number for a negative one); the theorems below take [0 < x]. *)
Definition root12 (x : R) : R := Rpower x (1 / 12).

(** Lines 27-29. *)
Definition monthly (ear : R) : R := root12 (1 + ear) - 1.
Definition Town_m (a : Assumptions) : R := monthly (TownEAR a).
Definition Debt_m (a : Assumptions) : R := monthly (DebtEAR a).
Definition Infl_m (a : Assumptions) : R := monthly (InflAnnual a).

(** Lines 31-32: [return r * pv / (1 - (1 + r) ** (-n))]. *)
Definition pmt (r : R) (n : Z) (pv : R) : result R :=
  p <- pow_int (1 + r) (- n) ;;
  div (r * pv) (1 - p).

(** Lines 35-36. *)
Definition town_payment (a : Assumptions) : result R :=
  pmt (Town_m a) (OpsMonths a) (EPC a).
Definition debt_payment (a : Assumptions) : result R :=
  pmt (Debt_m a) (OpsMonths a) (EPC a * DebtFrac a).

(** The two summary figures in the order the module computes them; the
    first exception ends the run. *)
Definition summaries (a : Assumptions) : result (R * R) :=
  t <- town_payment a ;;
  d <- debt_payment a ;;
  Ok (t, d).

End Py.

(** ** Python side, in binary64

    The same lines 27-36 with Python's floats as they are: IEEE 754
    binary64, every operation rounded to nearest-even. [**] follows
    CPython's [float_pow]: its special cases are decided here, and only a
    finite positive base other than 1 with a finite non-zero exponent
    reaches the C library's [pow], which is a parameter ([libm]) together
    with the [errno] it leaves. *)

Module F64.

Local Open Scope float_scope.

Inductive exn := ZeroDivisionError | OverflowError | ValueError.

(** What evaluating an expression gives: a float, an exception, or a
    complex number (a negative base raised to a fractional power), with
    which the run leaves this model. *)
Inductive outcome (A : Type) :=
| Ok (a : A)
| Raise (e : exn)
| Complex.
Arguments Ok {A} a.
Arguments Raise {A} e.
Arguments Complex {A}.

Definition bind {A B} (c : outcome A) (k : A -> outcome B) : outcome B :=
  match c with
  | Ok a => k a
  | Raise e => Raise e
  | Complex => Complex
  end.

Notation "x <- c ;; k" := (bind c (fun x => k))
  (at level 61, c at next level, right associativity).

Inductive errno := ENone | ERANGE | EDOM.

(** The C library's [pow]: its result and the [errno] it sets. *)
Definition libm := float -> float -> float * errno.

(** A [libm] for the runs that never reach it. *)
Definition libm_unreached : libm := fun _ _ => (nan, EDOM).

(** An int operand of a float operation ([PyLong_AsDouble]): the nearest
    float, OverflowError when the int is too large for one. *)
Definition of_int (z : Z) : outcome float :=
  let f := SF2Prim (binary_normalize prec emax z 0 false) in
  if is_infinity f then Raise OverflowError else Ok f.

(** [x == floor(x)] for a float that is not a NaN. *)
Definition is_integral (x : float) : bool :=
  match Prim2SF x with
  | S754_zero _ => true
  | S754_infinity _ => true
  | S754_nan => false
  | S754_finite _ m e =>
      if (0 <=? e)%Z then true else (Z.pos m mod 2 ^ (- e) =? 0)%Z
  end.

(** [DOUBLE_IS_ODD_INTEGER(x)], that is [fmod(fabs(x), 2.0) == 1.0]. *)
Definition is_odd_integer (x : float) : bool :=
  match Prim2SF x with
  | S754_finite _ m e =>
      if (e =? 0)%Z then Z.odd (Z.pos m)
      else if (e <? 0)%Z
           then (Z.pos m mod 2 ^ (- e) =? 0)%Z && Z.odd (Z.pos m / 2 ^ (- e))
           else false
  | _ => false
  end.

(** [iv ** iw] on floats. *)
Definition float_pow (pow : libm) (iv iw : float) : outcome float :=
  if iw =? 0 then Ok 1
  else if is_nan iv then Ok iv
  else if is_nan iw then Ok (if iv =? 1 then 1 else iw)
  else if is_infinity iw then
    (if abs iv =? 1 then Ok 1
     else if Bool.eqb (0 <? iw) (1 <? abs iv) then Ok (abs iw) else Ok 0)
  else if is_infinity iv then
    (if 0 <? iw
     then Ok (if is_odd_integer iw then iv else abs iv)
     else Ok (if is_odd_integer iw
              then (if iv <? 0 then neg_zero else zero) else zero))
  else if iv =? 0 then
    (if iw <? 0 then Raise ZeroDivisionError
     else Ok (if is_odd_integer iw then iv else zero))
  else if (iv <? 0) && negb (is_integral iw) then Complex
  else
    let negate := (iv <? 0) && is_odd_integer iw in
    let av := if iv <? 0 then - iv else iv in
    if av =? 1 then Ok (if negate then - (1) else 1)
    else
      let '(ix, err) := pow av iw in
      let err :=
        match err with
        | ENone => if is_infinity ix then ERANGE else ENone
        | ERANGE => if ix =? 0 then ENone else ERANGE
        | EDOM => EDOM
        end in
      match err with
      | ENone => Ok (if negate then - ix else ix)
      | ERANGE => Raise OverflowError
      | EDOM => Raise ValueError
      end.

(** [x / y] on floats. *)
Definition div (x y : float) : outcome float :=
  if y =? 0 then Raise ZeroDivisionError else Ok (x / y).

(** Lines 31-32: [return r * pv / (1 - (1 + r) ** (-n))], operands in
    Python's order of evaluation. *)
Definition pmt (pow : libm) (r : float) (n : Z) (pv : float)
    : outcome float :=
  let num := r * pv in
  let base := 1 + r in
  w <- of_int (- n) ;;
  p <- float_pow pow base w ;;
  div num (1 - p).

(** Lines 27-29: [(1 + ear) ** (1/12) - 1]. *)
Definition monthly (pow : libm) (ear : float) : outcome float :=
  p <- float_pow pow (1 + ear) (1 / 12) ;;
  Ok (p - 1).

(** The assumptions block (lines 13-24) with its floats. *)
Record Assumptions := mkAssumptions {
  BuildMonths : Z;
  OpsMonths   : Z;
  EPC         : float;
  OMBase      : float;
  Markup      : float;
  InflAnnual  : float;
  TownEAR     : float;
  DebtEAR     : float;
  TaxRate     : float;
  DebtFrac    : float;
  EquityFrac  : float
}.

(** Lines 27-36 in the order the module runs them: the three monthly
    rates, then the two payments; the first exception ends the run. *)
Definition summaries (pow : libm) (a : Assumptions)
    : outcome (float * float) :=
  town_m <- monthly pow (TownEAR a) ;;
  debt_m <- monthly pow (DebtEAR a) ;;
  _ <- monthly pow (InflAnnual a) ;;
  t <- pmt pow town_m (OpsMonths a) (EPC a) ;;
  d <- pmt pow debt_m (OpsMonths a) (EPC a * DebtFrac a) ;;
  Ok (t, d).

(** The float Python reads [1e-20] as. *)
Definition rate_1e_20 : float := 0x1.79ca10c924223p-67.

(** Assumptions with no operating month and annual rates of zero. *)
Definition no_operations : Assumptions :=
  mkAssumptions 24 0 62000000 325000 0 0 0 0 0 1 0.

(** Assumptions with a city rate of -300% a year. *)
Definition below_minus_one : Assumptions :=
  mkAssumptions 24 240 62000000 325000 0 0 (- (3)) 0 0 1 0.

End F64.

(** ** Workbook side

    A cell holds a number, a text or an error value. Every column below is
    a function of the sheet row [r] (row 1 is the header row written by
    [write_row]); the body is the formula that the script writes into that
    column, read with the spreadsheet's evaluation rules. The schedule
    sheets are written for rows 2..241, the statement sheets for rows
    2..265. *)

Module Xl.

Inductive xl_error := XlValue | XlDiv0 | XlNum | XlRef.

Inductive value :=
| VNum (x : R)
| VText (s : string)
| VErr (e : xl_error).

Definition is_error (v : value) : bool :=
  match v with VErr _ => true | _ => false end.

(** A binary arithmetic operator: operands are taken left to right, an
    error value is passed on and a text (the header labels, none of which
    reads as a number) gives [#VALUE!]. *)
Definition arith (op : R -> R -> R) (l r : value) : value :=
  match l with
  | VErr e => VErr e
  | VText _ => VErr XlValue
  | VNum x =>
      match r with
      | VErr e => VErr e
      | VText _ => VErr XlValue
      | VNum y => VNum (op x y)
      end
  end.

Definition add := arith Rplus.
Definition sub := arith Rminus.
Definition mul := arith Rmult.

(** Unary minus. *)
Definition neg (v : value) : value :=
  match v with
  | VNum x => VNum (- x)
  | VText _ => VErr XlValue
  | VErr e => VErr e
  end.

(** [IF(c > 0, t, f)]: only the chosen branch is evaluated; an error in
    the condition is the result; a text compares greater than any
    number. *)
Definition if_gt0 (c t f : value) : value :=
  match c with
  | VNum x => if Rlt_dec 0 x then t else f
  | VText _ => t
  | VErr e => VErr e
  end.

(** [x ^ (1/12)] as the Inputs sheet uses it: the twelfth root of a
    positive number, 0 for 0, [#NUM!] for a negative base. *)
Definition root12 (x : R) : value :=
  if Rlt_dec 0 x then VNum (Rpower x (1 / 12))
  else if Req_dec_T x 0 then VNum 0
  else VErr XlNum.

(** [x ^ k] for a whole-number exponent, as the OM sheet uses it. *)
Definition power_int (x : value) (k : Z) : value :=
  match x with
  | VNum b =>
      if Req_dec_T b 0 then
        (if (0 <? k)%Z then VNum 0
         else if (k =? 0)%Z then VErr XlNum else VErr XlDiv0)
      else VNum (powerRZ b k)
  | VText _ => VErr XlValue
  | VErr e => VErr e
  end.

(** The built-in [PMT(rate, nper, pv)] (future value 0, payments at the end
    of the period): [- pv * rate / (1 - (1 + rate) ^ (- nper))], and
    [- pv / nper] for a zero rate. In the degenerate cases (no periods,
    [rate <= -1]) the built-in gives an error value. *)
Definition PMT (rate : value) (nper : Z) (pv : value) : value :=
  match rate with
  | VErr e => VErr e
  | VText _ => VErr XlValue
  | VNum i =>
      match pv with
      | VErr e => VErr e
      | VText _ => VErr XlValue
      | VNum p =>
          if (nper =? 0)%Z then VErr XlNum
          else if Req_dec_T i 0 then VNum (- p / IZR nper)
          else if Rlt_dec (-1) i
               then VNum (- (p * i) / (1 - powerRZ (1 + i) (- nper)))
               else VErr XlNum
      end
  end.

(** The sheet rows the loops write: [range(2, 242)] on the three schedule
    sheets, [range(2, 266)] on the statement sheets. *)
Definition schedule_rows : list nat := seq 2 240.
Definition statement_rows : list nat := seq 2 264.

(** [INDEX(X2:X241, k)] for a column [X] of a schedule sheet. *)
Definition index (col : nat -> value) (k : Z) : value :=
  if ((1 <=? k) && (k <=? 240))%Z then col (Z.to_nat k + 1)%nat
  else VErr XlRef.

Section Workbook.

Variable a : Assumptions.

(** *** Inputs: the named cells *)

Definition nEPC : value := VNum (EPC a).
Definition nDebtFrac : value := VNum (DebtFrac a).
Definition nEquityFrac : value := VNum (EquityFrac a).
Definition nTaxRate : value := VNum (TaxRate a).
Definition nOMBase : value := VNum (OMBase a).
Definition nMarkup : value := VNum (Markup a).

(** B14..B16: [=(1+$B$8)^(1/12)-1] and its two siblings. *)
Definition nTown_m : value := sub (root12 (1 + TownEAR a)) (VNum 1).
Definition nDebt_m : value := sub (root12 (1 + DebtEAR a)) (VNum 1).
Definition nInfl_m : value := sub (root12 (1 + InflAnnual a)) (VNum 1).

(** B18, B19. *)
Definition CODMonth : Z := BuildMonths a.
Definition PaymentMonths : Z := OpsMonths a.

(** Column A of every sheet: the number [r - 1]. *)
Definition colA (r : nat) : Z := Z.of_nat r - 1.

(** *** The amortization block shared by City_Receivable and
    Debt_Schedule (lines 136-142 and 148-154)

    [header] is the text in F1, [principal] the value taken in sheet row
    2, [payment] the value of column C and [rate] the monthly rate. *)
Section Amortization.

Variable header : string.
Variables principal payment rate : value.

(** Column F, [=B{r}-E{r}], with B [=IF(ROW()=2, principal,
    OFFSET(F1,ROW()-3,0))], D [=B{r}*rate] and E [=C{r}-D{r}] inlined.
    [OFFSET(F1, ROW()-3, 0)] is the cell [ROW()-3] rows below F1, that is
    column F of row [r - 2]. *)
Fixpoint am_End (r : nat) : value :=
  match r with
  | O => VErr XlRef
  | 1%nat => VText header
  | S (S r') =>
      let beg := if (r =? 2)%nat then principal else am_End r' in
      let int := mul beg rate in
      let prin := sub payment int in
      sub beg prin
  end.

(** Column B. *)
Definition am_Beg (r : nat) : value :=
  if (r =? 2)%nat then principal else am_End (1 + (r - 3)).
(** Column D. *)
Definition am_Int (r : nat) : value := mul (am_Beg r) rate.
(** Column E. *)
Definition am_Prin (r : nat) : value := sub payment (am_Int r).

End Amortization.

(** City_Receivable, lines 136-142. *)
Definition tr_Pay : value := neg (PMT nTown_m PaymentMonths nEPC).
Definition tr_Beg := am_Beg "End_Receivable" nEPC tr_Pay nTown_m.
Definition tr_Int := am_Int "End_Receivable" nEPC tr_Pay nTown_m.
Definition tr_Prin := am_Prin "End_Receivable" nEPC tr_Pay nTown_m.
Definition tr_End := am_End "End_Receivable" nEPC tr_Pay nTown_m.

(** Debt_Schedule, lines 148-154. *)
Definition ds_principal : value := mul nEPC nDebtFrac.
Definition ds_Pay : value := neg (PMT nDebt_m PaymentMonths ds_principal).
Definition ds_Beg := am_Beg "End_Debt" ds_principal ds_Pay nDebt_m.
Definition ds_Int := am_Int "End_Debt" ds_principal ds_Pay nDebt_m.
Definition ds_Prin := am_Prin "End_Debt" ds_principal ds_Pay nDebt_m.
Definition ds_End := am_End "End_Debt" ds_principal ds_Pay nDebt_m.

(** OM, lines 160-164. *)
Definition om_Cost (r : nat) : value :=
  mul nOMBase (power_int (add (VNum 1) nInfl_m) (colA r - 1)).
Definition om_Rev (r : nat) : value :=
  mul (om_Cost r) (add (VNum 1) nMarkup).
Definition om_Margin (r : nat) : value := sub (om_Rev r) (om_Cost r).

(** *** IS_Monthly, lines 170-181 *)

(** Column B, [=IF(A{r}>BuildMonths, A{r}-BuildMonths, 0)]. *)
Definition is_OpIndex (r : nat) : Z :=
  if (BuildMonths a <? colA r)%Z then (colA r - BuildMonths a)%Z else 0%Z.

(** [=IF($B{r}>0, INDEX(col, $B{r}), 0)]. *)
Definition at_op (col : nat -> value) (r : nat) : value :=
  if (0 <? is_OpIndex r)%Z then index col (is_OpIndex r) else VNum 0.

Definition is_IntRev (r : nat) : value := at_op tr_Int r.
Definition is_OMRev (r : nat) : value := at_op om_Rev r.
Definition is_TotRev (r : nat) : value := add (is_IntRev r) (is_OMRev r).
Definition is_OMCost (r : nat) : value := at_op om_Cost r.
Definition is_EBIT (r : nat) : value := sub (is_TotRev r) (is_OMCost r).
Definition is_DebtInt (r : nat) : value := at_op ds_Int r.
Definition is_EBT (r : nat) : value := sub (is_EBIT r) (is_DebtInt r).
(** Column J, [=IF(I{r}>0, I{r}*TaxRate, 0)]. *)
Definition is_Tax (r : nat) : value :=
  if_gt0 (is_EBT r) (mul (is_EBT r) nTaxRate) (VNum 0).
Definition is_NI (r : nat) : value := sub (is_EBT r) (is_Tax r).

(** *** CF_Monthly, lines 187-193 *)

Definition cf_CFO (r : nat) : value := add (is_NI r) (at_op tr_Prin r).
Definition cf_CFI (r : nat) : value :=
  if (colA r =? BuildMonths a)%Z then neg nEPC else VNum 0.
Definition cf_CFF (r : nat) : value :=
  sub (if (colA r =? BuildMonths a)%Z
       then add (mul nEPC nDebtFrac) (mul nEPC nEquityFrac)
       else VNum 0)
      (at_op ds_Prin r).
Definition cf_Net (r : nat) : value :=
  add (add (cf_CFO r) (cf_CFI r)) (cf_CFF r).

(** Column F, [=IF(ROW()=2, E{r}, OFFSET(F1,ROW()-3,0)+E{r})]. *)
Fixpoint cf_Bal (r : nat) : value :=
  match r with
  | O => VErr XlRef
  | 1%nat => VText "Cash_Balance"
  | S (S r') =>
      if (r =? 2)%nat then cf_Net r else add (cf_Bal r') (cf_Net r)
  end.

(** *** BS_Monthly, lines 199-209 *)

Definition bs_Cash (r : nat) : value := cf_Bal r.
Definition bs_Recv (r : nat) : value :=
  if (colA r <? BuildMonths a)%Z then VNum 0
  else if (colA r =? BuildMonths a)%Z then nEPC
  else at_op tr_End r.
Definition bs_Assets (r : nat) : value := add (bs_Cash r) (bs_Recv r).
Definition bs_Debt (r : nat) : value :=
  if (colA r <? BuildMonths a)%Z then VNum 0
  else if (colA r =? BuildMonths a)%Z then mul nEPC nDebtFrac
  else at_op ds_End r.
Definition bs_PaidIn (r : nat) : value :=
  if (colA r <? BuildMonths a)%Z then VNum 0 else mul nEPC nEquityFrac.
(** Column G, [=IF(ROW()=2, IS_Monthly!K{r},
    OFFSET(G1,ROW()-3,0)+IS_Monthly!K{r})]. *)
Fixpoint bs_RE (r : nat) : value :=
  match r with
  | O => VErr XlRef
  | 1%nat => VText "Retained_Earnings"
  | S (S r') =>
      if (r =? 2)%nat then is_NI r else add (bs_RE r') (is_NI r)
  end.
Definition bs_TotEq (r : nat) : value := add (bs_PaidIn r) (bs_RE r).
Definition bs_LiabEq (r : nat) : value := add (bs_Debt r) (bs_TotEq r).
(** Column J, [=D{r}-I{r}]. *)
Definition bs_Check (r : nat) : value := sub (bs_Assets r) (bs_LiabEq r).

(** *** Levered_DCF_IRR, line 217 *)

Definition eq_CF (r : nat) : value :=
  if (colA r =? BuildMonths a)%Z then mul (neg nEPC) nEquityFrac
  else if (BuildMonths a <? colA r)%Z
       then sub (cf_CFO r) (index ds_Prin (is_OpIndex r))
       else VNum 0.

End Workbook.

End Xl.

(** ** The amortization schedule as the specification words it

    Row 1 begins at the principal, every later row begins at the ending
    balance of the row before it, and the payment is computed once by the
    level-payment function. *)

Module Spec.

Record row := mkRow {
  beginning : R;
  payment : R;
  interest : R;
  principal_paid : R;
  ending : R
}.

Fixpoint rows_from (rate pay : R) (n : nat) (beg : R) : list row :=
  match n with
  | O => []
  | S n' =>
      let i := beg * rate in
      let p := pay - i in
      let e := beg - p in
      mkRow beg pay i p e :: rows_from rate pay n' e
  end.

Definition build_amortization_schedule (rate : R) (periods : Z)
    (principal : R) : Py.result (list row) :=
  Py.bind (Py.pmt rate periods principal)
    (fun pay => Py.Ok (rows_from rate pay (Z.to_nat periods) principal)).

(** The ending balance of the last row ([beg] for an empty schedule). *)
Fixpoint final_ending (beg : R) (l : list row) : R :=
  match l with
  | [] => beg
  | x :: l' => final_ending (ending x) l'
  end.

(** The parameter sets that the specification calls invalid. *)
Definition invalid_parameters (a : Assumptions) : Prop :=
  DebtFrac a + EquityFrac a <> 1 \/
  (BuildMonths a <= 0)%Z \/ (OpsMonths a <= 0)%Z \/
  TownEAR a < -1 \/ DebtEAR a < -1 \/ InflAnnual a < -1.

End Spec.

(** The shipped assumptions with an equity fraction of 50%, so that the two
    fractions add up to 1.1, and no build period. *)
Definition overfunded : Assumptions := {|
  BuildMonths := 0;
  OpsMonths   := OpsMonths base;
  EPC         := EPC base;
  OMBase      := OMBase base;
  Markup      := Markup base;
  InflAnnual  := InflAnnual base;
  TownEAR     := TownEAR base;
  DebtEAR     := DebtEAR base;
  TaxRate     := TaxRate base;
  DebtFrac    := DebtFrac base;
  EquityFrac  := 50 / 100
|}.

(** * Facts about the Python side *)

Section PowerFacts.

Lemma powerRZ_opp_pos (x : R) (n : Z) :
  (0 < n)%Z -> powerRZ x (- n) = / x ^ Z.to_nat n.
Proof.
  intros Hn. destruct n as [|p|p]; try lia.
  reflexivity.
Qed.

Lemma pow_gt_1 (x : R) (n : nat) : 1 < x -> (0 < n)%nat -> 1 < x ^ n.
Proof.
  intros Hx Hn. induction n as [|n IH]; [lia|].
  destruct n as [|n].
  - simpl. lra.
  - assert (1 < x ^ S n) by (apply IH; lia).
    change (x ^ S (S n)) with (x * x ^ S n). nra.
Qed.

(** The discount factor of a positive rate over a positive number of
    periods lies strictly between 0 and 1. *)
Lemma discount_bounds (r : R) (n : Z) :
  0 < r -> (0 < n)%Z ->
  0 < powerRZ (1 + r) (- n) < 1.
Proof.
  intros Hr Hn. rewrite powerRZ_opp_pos by assumption.
  assert (H1 : 1 < (1 + r) ^ Z.to_nat n) by (apply pow_gt_1; [lra | lia]).
  split.
  - apply Rinv_0_lt_compat. lra.
  - assert (H2 : / (1 + r) ^ Z.to_nat n < / 1)
      by (apply Rinv_lt_contravar; lra).
    now rewrite Rinv_1 in H2.
Qed.

End PowerFacts.

(** [pmt] returns the value of its formula whenever the base of the power
    is not zero and the denominator is not zero. *)
Lemma pmt_defined (r : R) (n : Z) (pv : R) :
  1 + r <> 0 -> 1 - powerRZ (1 + r) (- n) <> 0 ->
  Py.pmt r n pv = Py.Ok (r * pv / (1 - powerRZ (1 + r) (- n))).
Proof.
  intros Hb Hd. unfold Py.pmt, Py.pow_int, Py.div, Py.bind.
  destruct (Req_dec_T (1 + r) 0) as [E|_]; [contradiction|].
  destruct (Req_dec_T (1 - powerRZ (1 + r) (- n)) 0) as [E|_];
    [contradiction|reflexivity].
Qed.

Lemma pmt_pos_rate (r : R) (n : Z) (pv : R) :
  0 < r -> (0 < n)%Z ->
  Py.pmt r n pv = Py.Ok (r * pv / (1 - powerRZ (1 + r) (- n))).
Proof.
  intros Hr Hn. pose proof (discount_bounds r n Hr Hn).
  apply pmt_defined; lra.
Qed.

(** ** Total of the level payments *)



(** ** Homogeneity in the principal *)

Lemma root12_gt_1 (x : R) : 1 < x -> 1 < Py.root12 x.
Proof.
  intros Hx. unfold Py.root12.
  rewrite <- (Rpower_O x) at 1 by lra.
  apply Rpower_lt; lra.
Qed.

Lemma monthly_pos (ear : R) : 0 < ear -> 0 < Py.monthly ear.
Proof.
  intros H. unfold Py.monthly.
  pose proof (root12_gt_1 (1 + ear) ltac:(lra)). lra.
Qed.

(** ** A zero rate *)



(** ** Parameter validation *)

(** C6, as stated, fails: fractions that add up to 1.1 and a build period
    of zero months raise no error at all. *)
Lemma invalid_parameters_not_detected :
  ~ (forall a, Spec.invalid_parameters a ->
               exists e, Py.summaries a = Py.Raise e).
Proof.
  intros H. destruct (H overfunded) as [e He].
  - left. simpl. lra.
  - unfold Py.summaries, Py.town_payment, Py.debt_payment in He.
    rewrite !pmt_pos_rate in He
      by (first [apply monthly_pos; simpl; lra | simpl; lia]).
    discriminate.
Qed.

(** ** The shipped scenario *)

Lemma root12_pow12 (x : R) : 0 < x -> Py.root12 x ^ 12 = x.
Proof.
  intros Hx. unfold Py.root12.
  rewrite <- Rpower_pow by apply exp_pos.
  rewrite Rpower_mult.
  replace (1 / 12 * INR 12) with 1 by (simpl; lra).
  now apply Rpower_1.
Qed.

(** The monthly growth factor of 6.75% a year, to ten decimals. *)
Lemma town_factor_bounds :
  10054581304 / 10000000000 < Py.root12 (1 + TownEAR base)
    < 10054581305 / 10000000000.
Proof.
  pose proof (root12_pow12 (1 + TownEAR base) ltac:(simpl; lra)) as H.
  simpl TownEAR in *.
  set (g := Py.root12 (1 + 675 / 10000)) in *.
  assert (Hg : 0 < g) by apply exp_pos.
  split.
  - destruct (Rlt_le_dec (10054581304 / 10000000000) g) as [?|Hle];
      [assumption|exfalso].
    assert (g ^ 12 <= (10054581304 / 10000000000) ^ 12)
      by (apply pow_incr; lra).
    lra.
  - destruct (Rlt_le_dec g (10054581305 / 10000000000)) as [?|Hle];
      [assumption|exfalso].
    assert ((10054581305 / 10000000000) ^ 12 <= g ^ 12)
      by (apply pow_incr; lra).
    lra.
Qed.

(** Over the 240 months the factor compounds to exactly twenty years of
    the annual rate. *)
Lemma town_discount :
  powerRZ (1 + Py.Town_m base) (- OpsMonths base) =
  / (1 + 675 / 10000) ^ 20.
Proof.
  unfold Py.Town_m, Py.monthly.
  replace (1 + (Py.root12 (1 + TownEAR base) - 1))
    with (Py.root12 (1 + TownEAR base)) by ring.
  rewrite powerRZ_opp_pos by (simpl; lia).
  replace (Z.to_nat (OpsMonths base)) with (12 * 20)%nat by reflexivity.
  rewrite pow_mult, root12_pow12 by (simpl; lra).
  reflexivity.
Qed.

Lemma town_payment_value :
  Py.town_payment base =
  Py.Ok (Py.Town_m base * 62000000 / (1 - / (1 + 675 / 10000) ^ 20)).
Proof.
  unfold Py.town_payment.
  rewrite pmt_pos_rate by (first [apply monthly_pos; simpl; lra | simpl; lia]).
  rewrite town_discount. reflexivity.
Qed.

Lemma town_payment_bounds (pay : R) :
  Py.town_payment base = Py.Ok pay ->
  4640732 / 10 < pay < 4640734 / 10.
Proof.
  rewrite town_payment_value. intros [= <-].
  pose proof town_factor_bounds as Hg.
  unfold Py.Town_m, Py.monthly.
  set (g := Py.root12 (1 + TownEAR base)) in *.
  set (D := 1 - / (1 + 675 / 10000) ^ 20).
  assert (HD : 72920 / 100000 < D < 72921 / 100000) by (unfold D; lra).
  assert (HN : 338404084 / 1000 < (g - 1) * 62000000 < 338404092 / 1000)
    by lra.
  split.
  - apply Rmult_lt_reg_r with D; [lra|].
    replace ((g - 1) * 62000000 / D * D) with ((g - 1) * 62000000)
      by (field; lra).
    unfold D. lra.
  - apply Rmult_lt_reg_r with D; [lra|].
    replace ((g - 1) * 62000000 / D * D) with ((g - 1) * 62000000)
      by (field; lra).
    unfold D. lra.
Qed.

(** * Facts about the workbook *)

(** ** Error values travel through the arithmetic *)

Lemma arith_text_l (op : R -> R -> R) (s : string) (v : Xl.value) :
  Xl.arith op (Xl.VText s) v = Xl.VErr Xl.XlValue.
Proof. reflexivity. Qed.

Lemma arith_err_l (op : R -> R -> R) (e : Xl.xl_error) (v : Xl.value) :
  Xl.arith op (Xl.VErr e) v = Xl.VErr e.
Proof. reflexivity. Qed.

(** ** The named monthly rates agree with the Python ones *)

Lemma xl_root12_pos (x : R) : 0 < x -> Xl.root12 x = Xl.VNum (Py.root12 x).
Proof.
  intros Hx. unfold Xl.root12.
  destruct (Rlt_dec 0 x) as [_|N]; [reflexivity|contradiction].
Qed.

Lemma nTown_m_value (a : Assumptions) :
  0 < 1 + TownEAR a -> Xl.nTown_m a = Xl.VNum (Py.Town_m a).
Proof.
  intros H. unfold Xl.nTown_m. now rewrite xl_root12_pos.
Qed.

Lemma nDebt_m_value (a : Assumptions) :
  0 < 1 + DebtEAR a -> Xl.nDebt_m a = Xl.VNum (Py.Debt_m a).
Proof.
  intros H. unfold Xl.nDebt_m. now rewrite xl_root12_pos.
Qed.

Lemma nInfl_m_value (a : Assumptions) :
  0 < 1 + InflAnnual a -> Xl.nInfl_m a = Xl.VNum (Py.Infl_m a).
Proof.
  intros H. unfold Xl.nInfl_m. now rewrite xl_root12_pos.
Qed.

(** The built-in payment on a positive rate. *)
Lemma PMT_pos_rate (i : R) (n : Z) (p : R) :
  0 < i -> (0 < n)%Z ->
  Xl.neg (Xl.PMT (Xl.VNum i) n (Xl.VNum p)) =
  Xl.VNum (i * p / (1 - powerRZ (1 + i) (- n))).
Proof.
  intros Hi Hn. unfold Xl.PMT.
  destruct (Z.eqb_spec n 0) as [E|_]; [lia|].
  destruct (Req_dec_T i 0) as [E|_]; [lra|].
  destruct (Rlt_dec (-1) i) as [_|N]; [|lra].
  simpl. f_equal. pose proof (discount_bounds i n Hi Hn). field. lra.
Qed.

(** With a positive rate and a positive term the payment cell of
    City_Receivable holds what [Py.town_payment] returns. *)
Lemma tr_Pay_value (a : Assumptions) :
  0 < TownEAR a -> (0 < OpsMonths a)%Z ->
  exists pay, Py.town_payment a = Py.Ok pay /\ Xl.tr_Pay a = Xl.VNum pay.
Proof.
  intros Ht Hn. eexists. split.
  - unfold Py.town_payment. apply pmt_pos_rate; [now apply monthly_pos|assumption].
  - unfold Xl.tr_Pay, Xl.nEPC, Xl.PaymentMonths.
    rewrite nTown_m_value by lra.
    apply PMT_pos_rate; [now apply monthly_pos|assumption].
Qed.

(** Row 2 of City_Receivable: the interest on the whole principal. *)
Lemma tr_Int_row2 (a : Assumptions) :
  0 < 1 + TownEAR a ->
  Xl.tr_Int a 2 = Xl.VNum (EPC a * Py.Town_m a).
Proof.
  intros H. unfold Xl.tr_Int, Xl.am_Int, Xl.am_Beg. simpl Nat.eqb.
  cbv iota. now rewrite nTown_m_value.
Qed.

Lemma Rabs_le_elim (x b : R) : Rabs x <= b -> - b <= x <= b.
Proof. unfold Rabs. destruct (Rcase_abs x); lra. Qed.

Lemma month1_interest_bounds :
  3384040 / 10 < EPC base * Py.Town_m base < 3384041 / 10.
Proof.
  pose proof town_factor_bounds as Hg.
  unfold Py.Town_m, Py.monthly. simpl EPC.
  set (g := Py.root12 (1 + TownEAR base)) in *. lra.
Qed.

(** C4, with the figures the code computes. For the shipped scenario
    (EPC 62,000,000, 6.75% a year converted to a monthly rate, 240
    months) the level payment, which the workbook's payment cell also
    holds, is 464,073 within one dollar, and the interest of month 1 is
    338,404 within one dollar. *)
Theorem scenario_city_figures :
  (exists pay,
      Py.town_payment base = Py.Ok pay /\
      Xl.tr_Pay base = Xl.VNum pay /\
      Rabs (pay - 464073) <= 1) /\
  (exists i,
      Xl.tr_Int base 2 = Xl.VNum i /\
      i = EPC base * Py.Town_m base /\
      Rabs (i - 338404) <= 1).
Proof.
  split.
  - destruct (tr_Pay_value base) as [pay [Hp Hx]]; [simpl; lra|simpl; lia|].
    exists pay. repeat split; try assumption.
    pose proof (town_payment_bounds pay Hp).
    apply Rabs_le. lra.
  - eexists. split; [apply tr_Int_row2; simpl; lra|]. split; [reflexivity|].
    pose proof month1_interest_bounds. apply Rabs_le. lra.
Qed.

(** C4, as stated, fails on both figures: the payment is not within one
    dollar of 463,777 and the interest of month 1 is more than 10,000
    away from 348,750. *)
Lemma scenario_city_figures_off :
  ~ (exists pay, Py.town_payment base = Py.Ok pay /\
                 Rabs (pay - 463777) <= 1) /\
  ~ (exists i, Xl.tr_Int base 2 = Xl.VNum i /\
               Rabs (i - 348750) <= 10000).
Proof.
  split.
  - intros [pay [Hp Hb]]. pose proof (town_payment_bounds pay Hp).
    apply Rabs_le_elim in Hb. lra.
  - intros [i [Hi Hb]]. rewrite tr_Int_row2 in Hi by (simpl; lra).
    injection Hi as <-. pose proof month1_interest_bounds.
    apply Rabs_le_elim in Hb. simpl EPC in *. lra.
Qed.

(** ** The amortization recurrence *)

(** What [OFFSET(F1, ROW()-3, 0)] denotes in row [r >= 3]. *)
Lemma am_Beg_offset (h : string) (p c i : Xl.value) (r : nat) :
  (3 <= r)%nat ->
  Xl.am_Beg h p c i r = Xl.am_End h p c i (r - 2).
Proof.
  intros Hr. unfold Xl.am_Beg.
  destruct (Nat.eqb_spec r 2) as [E|_]; [lia|].
  f_equal. lia.
Qed.

(** Column F is column B minus column E in every written row. *)
Lemma am_End_columns (h : string) (p c i : Xl.value) (r : nat) :
  (2 <= r)%nat ->
  Xl.am_End h p c i r =
  Xl.sub (Xl.am_Beg h p c i r) (Xl.am_Prin h p c i r).
Proof.
  intros Hr. destruct r as [|[|[|r']]]; try lia.
  - reflexivity.
  - unfold Xl.am_Prin, Xl.am_Int. rewrite am_Beg_offset by lia.
    replace (S (S (S r')) - 2)%nat with (S r') by lia.
    reflexivity.
Qed.

(** Row 3 begins at the header text of F1, and from there every second
    row holds [#VALUE!]. *)
Lemma am_End_odd_rows (h : string) (p c i : Xl.value) (k : nat) :
  Xl.am_End h p c i (2 * k + 3) = Xl.VErr Xl.XlValue.
Proof.
  induction k as [|k IH].
  - reflexivity.
  - replace (2 * S k + 3)%nat with (S (S (2 * k + 3))) by lia.
    replace (2 * k + 3)%nat with (S (S (S (2 * k)))) in * by lia.
    simpl in *. rewrite IH. reflexivity.
Qed.

(** C2, on the workbook. City_Receivable has 240 rows, the last one in
    sheet row 241, and whatever the assumptions are the ending balance of
    that last row (operating month 240) is the error value [#VALUE!], as
    is the one of row 3: the beginning balance of row 3 is the header
    text of F1, not the ending balance of row 2. *)
Theorem receivable_last_row_is_error (a : Assumptions) :
  length Xl.schedule_rows = 240%nat /\
  last Xl.schedule_rows 0%nat = 241%nat /\
  Xl.tr_End a 241 = Xl.VErr Xl.XlValue /\
  Xl.tr_End a 3 = Xl.VErr Xl.XlValue /\
  Xl.tr_Beg a 3 = Xl.VText "End_Receivable".
Proof.
  split; [reflexivity|]. split; [reflexivity|]. split; [|split].
  - exact (am_End_odd_rows _ _ _ _ 119).
  - exact (am_End_odd_rows _ _ _ _ 0).
  - reflexivity.
Qed.

(** The recurrence of the specification does close: with every row
    beginning at the ending balance of the row before it, the schedule has
    [periods] rows and the last ending balance is zero in exact
    arithmetic. *)
Lemma rows_from_length (rate pay : R) (n : nat) (beg : R) :
  length (Spec.rows_from rate pay n beg) = n.
Proof.
  revert beg. induction n as [|n IH]; intros beg; simpl; [reflexivity|].
  now rewrite IH.
Qed.

Lemma final_ending_closed_form (rate pay : R) (n : nat) (beg : R) :
  rate * Spec.final_ending beg (Spec.rows_from rate pay n beg) =
  rate * beg * (1 + rate) ^ n - pay * ((1 + rate) ^ n - 1).
Proof.
  revert beg. induction n as [|n IH]; intros beg.
  - simpl. ring.
  - simpl Spec.rows_from. simpl Spec.final_ending. rewrite IH.
    simpl. ring.
Qed.

Lemma spec_schedule_closes (rate : R) (periods : Z) (principal : R) :
  0 < rate -> (0 < periods)%Z ->
  exists sched,
    Spec.build_amortization_schedule rate periods principal = Py.Ok sched /\
    Z.of_nat (length sched) = periods /\
    Spec.final_ending principal sched = 0.
Proof.
  intros Hr Hn. unfold Spec.build_amortization_schedule.
  rewrite pmt_pos_rate by assumption. simpl Py.bind.
  eexists. split; [reflexivity|]. split.
  - rewrite rows_from_length. lia.
  - apply Rmult_eq_reg_l with rate; [|lra].
    rewrite final_ending_closed_form.
    pose proof (discount_bounds rate periods Hr Hn) as Hd.
    rewrite powerRZ_opp_pos in * by assumption.
    assert (Hq : (1 + rate) ^ Z.to_nat periods <> 0)
      by (apply pow_nonzero; lra).
    field. split; [assumption|].
    intros E. apply Hq.
    assert (1 - / (1 + rate) ^ Z.to_nat periods = 0).
    { apply Rmult_eq_reg_l with ((1 + rate) ^ Z.to_nat periods); [|assumption].
      field_simplify; [|assumption]. lra. }
    lra.
Qed.

(** ** The running balances of CF_Monthly and BS_Monthly *)

Lemma cf_Bal_odd_rows (a : Assumptions) (k : nat) :
  Xl.cf_Bal a (2 * k + 3) = Xl.VErr Xl.XlValue.
Proof.
  induction k as [|k IH].
  - reflexivity.
  - replace (2 * S k + 3)%nat with (S (S (2 * k + 3))) by lia.
    replace (2 * k + 3)%nat with (S (S (S (2 * k)))) in * by lia.
    simpl in *. rewrite IH. reflexivity.
Qed.

(** C3, on the workbook. In every even month (sheet rows 3, 5, ..., 265)
    the balance-check cell is [#VALUE!], not a number, whatever the
    assumptions are: the cash balance of row 3 adds the header text of
    F1. Month 2 (sheet row 3, a row the loop writes) is the first such
    month. *)
Theorem balance_check_even_months_error (a : Assumptions) (k : nat) :
  In 3%nat Xl.statement_rows /\
  Xl.cf_Bal a 3 = Xl.add (Xl.VText "Cash_Balance") (Xl.cf_Net a 3) /\
  Xl.bs_Check a (2 * k + 3) = Xl.VErr Xl.XlValue.
Proof.
  split; [right; left; reflexivity|]. split; [reflexivity|].
  unfold Xl.bs_Check, Xl.bs_Assets, Xl.bs_Cash.
  rewrite cf_Bal_odd_rows. reflexivity.
Qed.

(** ** Tax *)

(** The cells that feed EBT in the first operating month. *)
Lemma root12_pos (x : R) : 0 < Py.root12 x.
Proof. apply exp_pos. Qed.

Lemma om_Cost_value (a : Assumptions) (r : nat) :
  0 < 1 + InflAnnual a ->
  Xl.om_Cost a r =
  Xl.VNum (OMBase a * powerRZ (1 + Py.Infl_m a) (Xl.colA r - 1)).
Proof.
  intros H. unfold Xl.om_Cost. rewrite nInfl_m_value by assumption.
  simpl. destruct (Req_dec_T (1 + Py.Infl_m a) 0) as [E|_]; [|reflexivity].
  exfalso. unfold Py.Infl_m, Py.monthly in E.
  pose proof (root12_pos (1 + InflAnnual a)). lra.
Qed.

Lemma om_Rev_value (a : Assumptions) (r : nat) :
  0 < 1 + InflAnnual a ->
  Xl.om_Rev a r =
  Xl.VNum (OMBase a * powerRZ (1 + Py.Infl_m a) (Xl.colA r - 1)
           * (1 + Markup a)).
Proof.
  intros H. unfold Xl.om_Rev. now rewrite om_Cost_value.
Qed.

Lemma ds_Int_row2 (a : Assumptions) :
  0 < 1 + DebtEAR a ->
  Xl.ds_Int a 2 = Xl.VNum (EPC a * DebtFrac a * Py.Debt_m a).
Proof.
  intros H. unfold Xl.ds_Int, Xl.am_Int, Xl.am_Beg. simpl Nat.eqb.
  cbv iota. now rewrite nDebt_m_value.
Qed.

(** ** The odd months

    The running balances reach two rows up, so the even sheet rows (the
    odd months) form a chain of their own that never meets a header
    text. With 24 build months this chain reads the even rows of the two
    schedules, and along it the balance sheet does balance (exact
    arithmetic). *)

Lemma cf_Bal_step (a : Assumptions) (n : nat) :
  (1 <= n)%nat ->
  Xl.cf_Bal a (n + 2) = Xl.add (Xl.cf_Bal a n) (Xl.cf_Net a (n + 2)).
Proof.
  intros Hn. destruct n as [|n]; [lia|].
  replace (S n + 2)%nat with (S (S (S n))) by lia. reflexivity.
Qed.

Lemma bs_RE_step (a : Assumptions) (n : nat) :
  (1 <= n)%nat ->
  Xl.bs_RE a (n + 2) = Xl.add (Xl.bs_RE a n) (Xl.is_NI a (n + 2)).
Proof.
  intros Hn. destruct n as [|n]; [lia|].
  replace (S n + 2)%nat with (S (S (S n))) by lia. reflexivity.
Qed.

Section OddMonths.

Variable a : Assumptions.
Variables ct cd : R.
Hypothesis HB : BuildMonths a = 24%Z.
Hypothesis HT : 0 < 1 + TownEAR a.
Hypothesis HD : 0 < 1 + DebtEAR a.
Hypothesis HI : 0 < 1 + InflAnnual a.
Hypothesis Hct : Xl.tr_Pay a = Xl.VNum ct.
Hypothesis Hcd : Xl.ds_Pay a = Xl.VNum cd.
Hypothesis HF : DebtFrac a + EquityFrac a = 1.

Lemma at_op_build (col : nat -> Xl.value) (r : nat) :
  (Xl.colA r <= 24)%Z -> Xl.at_op a col r = Xl.VNum 0.
Proof.
  intros Hr. unfold Xl.at_op, Xl.is_OpIndex. rewrite HB.
  destruct (Z.ltb_spec 24 (Xl.colA r)) as [L|_]; [lia|reflexivity].
Qed.

Lemma at_op_operating (col : nat -> Xl.value) (r : nat) :
  (26 <= r <= 265)%nat -> Xl.at_op a col r = col (r - 24)%nat.
Proof.
  intros Hr. unfold Xl.at_op, Xl.is_OpIndex, Xl.index, Xl.colA. rewrite HB.
  destruct (Z.ltb_spec 24 (Z.of_nat r - 1)) as [_|L]; [|lia].
  destruct (Z.ltb_spec 0 (Z.of_nat r - 1 - 24)) as [_|L]; [|lia].
  destruct (Z.leb_spec 1 (Z.of_nat r - 1 - 24)) as [_|L]; [|lia].
  destruct (Z.leb_spec (Z.of_nat r - 1 - 24) 240) as [_|L]; [|lia].
  simpl. f_equal. lia.
Qed.

(** One row of City_Receivable whose beginning balance is a number. *)
Lemma tr_row (s : nat) (b : R) :
  (2 <= s)%nat -> Xl.tr_Beg a s = Xl.VNum b ->
  Xl.tr_Int a s = Xl.VNum (b * Py.Town_m a) /\
  Xl.tr_Prin a s = Xl.VNum (ct - b * Py.Town_m a) /\
  Xl.tr_End a s = Xl.VNum (b - (ct - b * Py.Town_m a)).
Proof.
  intros Hs Hb.
  assert (Hi : Xl.tr_Int a s = Xl.VNum (b * Py.Town_m a)).
  { unfold Xl.tr_Int, Xl.am_Int. unfold Xl.tr_Beg in Hb. rewrite Hb.
    now rewrite nTown_m_value. }
  assert (Hp : Xl.tr_Prin a s = Xl.VNum (ct - b * Py.Town_m a)).
  { unfold Xl.tr_Prin, Xl.am_Prin. unfold Xl.tr_Int in Hi.
    now rewrite Hi, Hct. }
  repeat split; try assumption.
  unfold Xl.tr_End. rewrite am_End_columns by assumption.
  unfold Xl.tr_Beg in Hb. unfold Xl.tr_Prin in Hp. now rewrite Hb, Hp.
Qed.

(** One row of Debt_Schedule whose beginning balance is a number. *)
Lemma ds_row (s : nat) (b : R) :
  (2 <= s)%nat -> Xl.ds_Beg a s = Xl.VNum b ->
  Xl.ds_Int a s = Xl.VNum (b * Py.Debt_m a) /\
  Xl.ds_Prin a s = Xl.VNum (cd - b * Py.Debt_m a) /\
  Xl.ds_End a s = Xl.VNum (b - (cd - b * Py.Debt_m a)).
Proof.
  intros Hs Hb.
  assert (Hi : Xl.ds_Int a s = Xl.VNum (b * Py.Debt_m a)).
  { unfold Xl.ds_Int, Xl.am_Int. unfold Xl.ds_Beg in Hb. rewrite Hb.
    now rewrite nDebt_m_value. }
  assert (Hp : Xl.ds_Prin a s = Xl.VNum (cd - b * Py.Debt_m a)).
  { unfold Xl.ds_Prin, Xl.am_Prin. unfold Xl.ds_Int in Hi.
    now rewrite Hi, Hcd. }
  repeat split; try assumption.
  unfold Xl.ds_End. rewrite am_End_columns by assumption.
  unfold Xl.ds_Beg in Hb. unfold Xl.ds_Prin in Hp. now rewrite Hb, Hp.
Qed.

(** Net income is a number as soon as EBT is one. *)
Lemma is_NI_of_EBT (r : nat) (x : R) :
  Xl.is_EBT a r = Xl.VNum x -> exists ni, Xl.is_NI a r = Xl.VNum ni.
Proof.
  intros H. unfold Xl.is_NI, Xl.is_Tax. rewrite H. simpl.
  destruct (Rlt_dec 0 x); eexists; reflexivity.
Qed.

(** A month of the build period before the COD month: nothing moves. *)
Lemma build_row (r : nat) :
  (Xl.colA r < 24)%Z ->
  Xl.is_NI a r = Xl.VNum 0 /\ Xl.cf_Net a r = Xl.VNum 0.
Proof.
  intros Hr.
  assert (Hni : Xl.is_NI a r = Xl.VNum 0).
  { unfold Xl.is_NI, Xl.is_Tax, Xl.is_EBT, Xl.is_EBIT, Xl.is_TotRev,
      Xl.is_IntRev, Xl.is_OMRev, Xl.is_OMCost, Xl.is_DebtInt.
    rewrite !at_op_build by lia. simpl.
    destruct (Rlt_dec 0 (0 + 0 - 0 - 0)) as [L|_]; [exfalso; lra|].
    simpl. f_equal. lra. }
  split; [assumption|].
  unfold Xl.cf_Net, Xl.cf_CFO, Xl.cf_CFI, Xl.cf_CFF.
  rewrite Hni, !at_op_build by lia. rewrite HB.
  destruct (Z.eqb_spec (Xl.colA r) 24) as [E|_]; [lia|].
  simpl. f_equal. lra.
Qed.

Lemma build_balances (m : nat) :
  (m <= 11)%nat ->
  Xl.cf_Bal a (2 * m + 2) = Xl.VNum 0 /\ Xl.bs_RE a (2 * m + 2) = Xl.VNum 0.
Proof.
  induction m as [|m IH]; intros Hm.
  - destruct (build_row 2) as [Hni Hnet]; [unfold Xl.colA; lia|].
    split; simpl; assumption.
  - destruct IH as [Hc Hg]; [lia|].
    destruct (build_row (2 * S m + 2)) as [Hni Hnet]; [unfold Xl.colA; lia|].
    replace (2 * S m + 2)%nat with (2 * m + 2 + 2)%nat in * by lia.
    rewrite cf_Bal_step, bs_RE_step by lia.
    rewrite Hc, Hg, Hni, Hnet. simpl. split; f_equal; lra.
Qed.

(** An operating month in an even sheet row, given the beginning balances
    of the schedule rows it reads. *)
Lemma operating_row (r : nat) (bt bd : R) :
  (26 <= r <= 265)%nat ->
  Xl.tr_Beg a (r - 24) = Xl.VNum bt ->
  Xl.ds_Beg a (r - 24) = Xl.VNum bd ->
  Xl.colA r <> 24%Z ->
  exists ni,
    Xl.is_NI a r = Xl.VNum ni /\
    Xl.cf_Net a r =
    Xl.VNum (ni + (ct - bt * Py.Town_m a) + 0
             + (0 - (cd - bd * Py.Debt_m a))).
Proof.
  intros Hr Hbt Hbd Hcod.
  destruct (tr_row (r - 24) bt ltac:(lia) Hbt) as [Hti [Htp _]].
  destruct (ds_row (r - 24) bd ltac:(lia) Hbd) as [Hdi [Hdp _]].
  assert (He : exists x, Xl.is_EBT a r = Xl.VNum x).
  { unfold Xl.is_EBT, Xl.is_EBIT, Xl.is_TotRev, Xl.is_IntRev, Xl.is_OMRev,
      Xl.is_OMCost, Xl.is_DebtInt.
    rewrite !at_op_operating by assumption.
    rewrite Hti, Hdi, om_Rev_value, om_Cost_value by assumption.
    eexists. reflexivity. }
  destruct He as [x He]. destruct (is_NI_of_EBT r x He) as [ni Hni].
  exists ni. split; [assumption|].
  unfold Xl.cf_Net, Xl.cf_CFO, Xl.cf_CFI, Xl.cf_CFF.
  rewrite !at_op_operating by assumption.
  rewrite Hni, Htp, Hdp, HB.
  destruct (Z.eqb_spec (Xl.colA r) 24) as [E|_]; [contradiction|].
  reflexivity.
Qed.

(** Along the even rows of the operating period cash plus receivable
    exceed debt plus retained earnings by the equity paid in. *)
Lemma operating_balances (k : nat) :
  (k <= 119)%nat ->
  exists c g t d,
    Xl.cf_Bal a (2 * k + 26) = Xl.VNum c /\
    Xl.bs_RE a (2 * k + 26) = Xl.VNum g /\
    Xl.tr_End a (2 * k + 2) = Xl.VNum t /\
    Xl.ds_End a (2 * k + 2) = Xl.VNum d /\
    c + t - d - g = EPC a * EquityFrac a.
Proof.
  induction k as [|k IH]; intros Hk.
  - destruct (build_balances 11 ltac:(lia)) as [Hc Hg].
    assert (Hbt : Xl.tr_Beg a (26 - 24) = Xl.VNum (EPC a)) by reflexivity.
    assert (Hbd : Xl.ds_Beg a (26 - 24) = Xl.VNum (EPC a * DebtFrac a))
      by reflexivity.
    destruct (operating_row 26 _ _ ltac:(lia) Hbt Hbd) as [ni [Hni Hnet]];
      [unfold Xl.colA; lia|].
    destruct (tr_row 2 _ ltac:(lia) Hbt) as [_ [_ Hte]].
    destruct (ds_row 2 _ ltac:(lia) Hbd) as [_ [_ Hde]].
    change (2 * 0 + 26)%nat with (24 + 2)%nat.
    rewrite cf_Bal_step, bs_RE_step by lia.
    change (2 * 11 + 2)%nat with 24%nat in *.
    change (24 + 2)%nat with 26%nat.
    rewrite Hc, Hg, Hni, Hnet. change (2 * 0 + 2)%nat with 2%nat.
    rewrite Hte, Hde.
    assert (HE : EPC a * (DebtFrac a + EquityFrac a) = EPC a)
      by (rewrite HF; ring).
    do 4 eexists. repeat split. nra.
  - destruct IH as [c [g [t [d [Hc [Hg [Ht [Hd Hinv]]]]]]]]; [lia|].
    assert (Hbt : Xl.tr_Beg a (2 * S k + 26 - 24) = Xl.VNum t).
    { unfold Xl.tr_Beg. rewrite am_Beg_offset by lia.
      replace (2 * S k + 26 - 24 - 2)%nat with (2 * k + 2)%nat by lia.
      exact Ht. }
    assert (Hbd : Xl.ds_Beg a (2 * S k + 26 - 24) = Xl.VNum d).
    { unfold Xl.ds_Beg. rewrite am_Beg_offset by lia.
      replace (2 * S k + 26 - 24 - 2)%nat with (2 * k + 2)%nat by lia.
      exact Hd. }
    destruct (operating_row (2 * S k + 26) _ _ ltac:(lia) Hbt Hbd)
      as [ni [Hni Hnet]]; [unfold Xl.colA; lia|].
    destruct (tr_row (2 * S k + 26 - 24) t ltac:(lia) Hbt) as [_ [_ Hte]].
    destruct (ds_row (2 * S k + 26 - 24) d ltac:(lia) Hbd) as [_ [_ Hde]].
    replace (2 * S k + 26 - 24)%nat with (2 * S k + 2)%nat in * by lia.
    replace (2 * S k + 26)%nat with (2 * k + 26 + 2)%nat in * by lia.
    rewrite cf_Bal_step, bs_RE_step by lia.
    rewrite Hc, Hg, Hni, Hnet, Hte, Hde.
    do 4 eexists. repeat split. simpl. lra.
Qed.

(** In every odd month (sheet rows 2, 4, ..., 264) the balance check is
    zero in exact arithmetic; binary64 leaves a rounding residue of the
    order of 1e-8 on amounts of this size. *)
Lemma balance_check_odd_months (m : nat) :
  (m <= 131)%nat -> Xl.bs_Check a (2 * m + 2) = Xl.VNum 0.
Proof.
  intros Hm. unfold Xl.bs_Check, Xl.bs_Assets, Xl.bs_LiabEq, Xl.bs_TotEq,
    Xl.bs_Cash, Xl.bs_Recv, Xl.bs_Debt, Xl.bs_PaidIn.
  rewrite HB. destruct (le_lt_dec m 11) as [Hb|Ho].
  - destruct (build_balances m Hb) as [Hc Hg]. rewrite Hc, Hg.
    destruct (Z.ltb_spec (Xl.colA (2 * m + 2)) 24) as [_|L];
      [|unfold Xl.colA in L; lia].
    simpl. f_equal. lra.
  - destruct (operating_balances (m - 12) ltac:(lia))
      as [c [g [t [d [Hc [Hg [Ht [Hd Hinv]]]]]]]].
    replace (2 * (m - 12) + 26)%nat with (2 * m + 2)%nat in * by lia.
    rewrite Hc, Hg.
    destruct (Z.ltb_spec (Xl.colA (2 * m + 2)) 24) as [L|_];
      [unfold Xl.colA in L; lia|].
    destruct (Z.eqb_spec (Xl.colA (2 * m + 2)) 24) as [E|_];
      [unfold Xl.colA in E; lia|].
    rewrite !at_op_operating by lia.
    replace (2 * m + 2 - 24)%nat with (2 * (m - 12) + 2)%nat by lia.
    assert (HE : EPC a * (DebtFrac a + EquityFrac a) = EPC a)
      by (rewrite HF; ring).
    rewrite Ht, Hd. simpl. f_equal. nra.
Qed.

End OddMonths.

Lemma ds_Pay_value (a : Assumptions) :
  0 < DebtEAR a -> (0 < OpsMonths a)%Z ->
  exists pay, Py.debt_payment a = Py.Ok pay /\ Xl.ds_Pay a = Xl.VNum pay.
Proof.
  intros Hd Hn. eexists. split.
  - unfold Py.debt_payment.
    apply pmt_pos_rate; [now apply monthly_pos|assumption].
  - unfold Xl.ds_Pay, Xl.ds_principal, Xl.nEPC, Xl.nDebtFrac,
      Xl.PaymentMonths.
    rewrite nDebt_m_value by lra.
    apply PMT_pos_rate; [now apply monthly_pos|assumption].
Qed.

(** With 24 build months, positive financing rates and fractions that add
    up to 1, the balance check is zero in every odd month, in exact
    arithmetic. *)
Lemma balance_check_odd_months_zero (a : Assumptions) (m : nat) :
  BuildMonths a = 24%Z -> 0 < TownEAR a -> 0 < DebtEAR a ->
  0 < 1 + InflAnnual a -> (0 < OpsMonths a)%Z ->
  DebtFrac a + EquityFrac a = 1 ->
  (m <= 131)%nat ->
  Xl.bs_Check a (2 * m + 2) = Xl.VNum 0.
Proof.
  intros HB HT HD HI HN HF Hm.
  destruct (tr_Pay_value a HT HN) as [ct [_ Hct]].
  destruct (ds_Pay_value a HD HN) as [cd [_ Hcd]].
  apply (balance_check_odd_months a ct cd); solve [assumption | lra].
Qed.

Lemma balance_check_odd_months_shipped (m : nat) :
  (m <= 131)%nat -> Xl.bs_Check base (2 * m + 2) = Xl.VNum 0.
Proof.
  intros Hm. apply balance_check_odd_months_zero;
    solve [assumption | reflexivity | simpl; lra | simpl; lia].
Qed.

(** ** The levered equity cash flows *)

(** The COD month carries the equity outlay. *)
Lemma eq_CF_cod_month :
  Xl.eq_CF base 25 = Xl.VNum (- EPC base * EquityFrac base).
Proof. reflexivity. Qed.

(** With 24 build months every even operating month of the equity
    cash-flow column is [#VALUE!]: it reads an odd row of
    City_Receivable. *)
Lemma tr_Int_odd_rows (a : Assumptions) (k : nat) :
  Xl.tr_Int a (2 * k + 3) = Xl.VErr Xl.XlValue.
Proof.
  unfold Xl.tr_Int, Xl.am_Int. rewrite am_Beg_offset by lia.
  replace (2 * k + 3 - 2)%nat with (S (2 * k)) by lia.
  destruct k as [|k].
  - reflexivity.
  - replace (S (2 * S k)) with (2 * k + 3)%nat by lia.
    now rewrite am_End_odd_rows.
Qed.

Lemma eq_CF_even_operating_months (a : Assumptions) (k : nat) :
  BuildMonths a = 24%Z -> (k <= 119)%nat ->
  Xl.eq_CF a (2 * k + 27) = Xl.VErr Xl.XlValue.
Proof.
  intros HB Hk. unfold Xl.eq_CF. rewrite HB.
  destruct (Z.eqb_spec (Xl.colA (2 * k + 27)) 24) as [E|_];
    [unfold Xl.colA in E; lia|].
  destruct (Z.ltb_spec 24 (Xl.colA (2 * k + 27))) as [_|L];
    [|unfold Xl.colA in L; lia].
  unfold Xl.cf_CFO, Xl.is_NI, Xl.is_EBT, Xl.is_EBIT, Xl.is_TotRev,
    Xl.is_IntRev.
  rewrite (at_op_operating a HB) by lia.
  replace (2 * k + 27 - 24)%nat with (2 * k + 3)%nat by lia.
  rewrite tr_Int_odd_rows. reflexivity.
Qed.

(** * Further facts about the workbook *)

(** ** The statements before and at COD (lines 172-193) *)

Lemma at_op_until_cod (a : Assumptions) (col : nat -> Xl.value) (r : nat) :
  (Xl.colA r <= BuildMonths a)%Z -> Xl.at_op a col r = Xl.VNum 0.
Proof.
  intros Hr. unfold Xl.at_op, Xl.is_OpIndex.
  destruct (Z.ltb_spec (BuildMonths a) (Xl.colA r)) as [L|_];
    [lia|reflexivity].
Qed.

(** X12. In every month up to and including the COD month, whatever the
    assumptions are, revenue, cost, EBT, tax, net income and operating
    cash flow are all zero. *)
Theorem no_income_until_cod (a : Assumptions) (r : nat) :
  (Xl.colA r <= BuildMonths a)%Z ->
  Xl.is_TotRev a r = Xl.VNum 0 /\ Xl.is_OMCost a r = Xl.VNum 0 /\
  Xl.is_EBT a r = Xl.VNum 0 /\ Xl.is_Tax a r = Xl.VNum 0 /\
  Xl.is_NI a r = Xl.VNum 0 /\ Xl.cf_CFO a r = Xl.VNum 0.
Proof.
  intros Hr.
  assert (Hrev : Xl.is_TotRev a r = Xl.VNum 0).
  { unfold Xl.is_TotRev, Xl.is_IntRev, Xl.is_OMRev.
    rewrite !at_op_until_cod by assumption. simpl. f_equal. lra. }
  assert (Hcost : Xl.is_OMCost a r = Xl.VNum 0)
    by (unfold Xl.is_OMCost; now apply at_op_until_cod).
  assert (Hebt : Xl.is_EBT a r = Xl.VNum 0).
  { unfold Xl.is_EBT, Xl.is_EBIT, Xl.is_DebtInt.
    rewrite Hrev, Hcost, at_op_until_cod by assumption.
    simpl. f_equal. lra. }
  assert (Htax : Xl.is_Tax a r = Xl.VNum 0).
  { unfold Xl.is_Tax. rewrite Hebt. simpl.
    destruct (Rlt_dec 0 0) as [L|_]; [exfalso; lra|reflexivity]. }
  assert (Hni : Xl.is_NI a r = Xl.VNum 0).
  { unfold Xl.is_NI. rewrite Hebt, Htax. simpl. f_equal. lra. }
  repeat split; try assumption.
  unfold Xl.cf_CFO. rewrite Hni, at_op_until_cod by assumption.
  simpl. f_equal. lra.
Qed.

Lemma no_income_until_cod_witness :
  Xl.is_TotRev base 25 = Xl.VNum 0 /\ Xl.is_OMCost base 25 = Xl.VNum 0 /\
  Xl.is_EBT base 25 = Xl.VNum 0 /\ Xl.is_Tax base 25 = Xl.VNum 0 /\
  Xl.is_NI base 25 = Xl.VNum 0 /\ Xl.cf_CFO base 25 = Xl.VNum 0.
Proof. apply no_income_until_cod. unfold Xl.colA. simpl. lia. Defined.

(** ** Operating months (lines 189-192 and 217) *)

(** X15. In every month after the COD month the levered equity cash flow
    is the net change in cash of that month, error values included. *)
Theorem equity_cf_is_net_change (a : Assumptions) (r : nat) :
  (BuildMonths a < Xl.colA r)%Z ->
  Xl.eq_CF a r = Xl.cf_Net a r.
Proof.
  intros Hr. unfold Xl.eq_CF, Xl.cf_Net, Xl.cf_CFI, Xl.cf_CFF, Xl.at_op.
  assert (Hop : Xl.is_OpIndex a r = (Xl.colA r - BuildMonths a)%Z).
  { unfold Xl.is_OpIndex.
    destruct (Z.ltb_spec (BuildMonths a) (Xl.colA r)); [reflexivity|lia]. }
  rewrite Hop.
  destruct (Z.eqb_spec (Xl.colA r) (BuildMonths a)) as [E|_]; [lia|].
  destruct (Z.ltb_spec (BuildMonths a) (Xl.colA r)) as [_|L]; [|lia].
  destruct (Z.ltb_spec 0 (Xl.colA r - BuildMonths a)) as [_|L]; [|lia].
  destruct (Xl.cf_CFO a r) as [c| |e]; try reflexivity.
  destruct (Xl.index (Xl.ds_Prin a) (Xl.colA r - BuildMonths a))
    as [p| |e]; try reflexivity.
  simpl. f_equal. ring.
Qed.

Lemma equity_cf_is_net_change_witness :
  Xl.eq_CF base 26 = Xl.cf_Net base 26.
Proof. apply equity_cf_is_net_change. unfold Xl.colA. simpl. lia. Defined.

(** ** The off-by-two chaining outside City_Receivable *)

Lemma am_Int_odd_rows (h : string) (p c i : Xl.value) (k : nat) :
  Xl.am_Int h p c i (2 * k + 3) = Xl.VErr Xl.XlValue.
Proof.
  unfold Xl.am_Int. rewrite am_Beg_offset by lia.
  replace (2 * k + 3 - 2)%nat with (S (2 * k)) by lia.
  destruct k as [|k].
  - reflexivity.
  - replace (S (2 * S k)) with (2 * k + 3)%nat by lia.
    now rewrite am_End_odd_rows.
Qed.

(** X16. Debt_Schedule and the retained-earnings column chain like
    City_Receivable: in every odd sheet row from 3 on the debt interest
    and the ending debt balance are [#VALUE!], the principal repayment is
    an error value, and so are retained earnings; the last row of
    Debt_Schedule (sheet row 241) is among them. *)
Theorem debt_and_retained_earnings_odd_rows (a : Assumptions) (k : nat) :
  Xl.ds_Beg a 3 = Xl.VText "End_Debt" /\
  Xl.ds_Int a (2 * k + 3) = Xl.VErr Xl.XlValue /\
  Xl.is_error (Xl.ds_Prin a (2 * k + 3)) = true /\
  Xl.ds_End a (2 * k + 3) = Xl.VErr Xl.XlValue /\
  Xl.ds_End a 241 = Xl.VErr Xl.XlValue /\
  Xl.bs_RE a (2 * k + 3) = Xl.VErr Xl.XlValue.
Proof.
  split; [reflexivity|]. split; [apply am_Int_odd_rows|].
  split; [|split; [|split]].
  - unfold Xl.ds_Prin, Xl.am_Prin. rewrite am_Int_odd_rows.
    destruct (Xl.ds_Pay a); reflexivity.
  - apply am_End_odd_rows.
  - exact (am_End_odd_rows _ _ _ _ 119).
  - induction k as [|k IH]; [reflexivity|].
    replace (2 * S k + 3)%nat with (S (S (2 * k + 3))) by lia.
    replace (2 * k + 3)%nat with (S (S (S (2 * k)))) in * by lia.
    simpl in *. rewrite IH. reflexivity.
Qed.

(** X17. An operating month with an even operating index reads an odd row
    of City_Receivable: its interest revenue, EBT, tax, net income,
    operating cash flow and equity cash flow are all [#VALUE!]. *)
Theorem even_operating_months_error (a : Assumptions) (r : nat) (j : Z) :
  Xl.is_OpIndex a r = (2 * j)%Z -> (1 <= j <= 120)%Z ->
  Xl.is_IntRev a r = Xl.VErr Xl.XlValue /\
  Xl.is_EBT a r = Xl.VErr Xl.XlValue /\
  Xl.is_Tax a r = Xl.VErr Xl.XlValue /\
  Xl.is_NI a r = Xl.VErr Xl.XlValue /\
  Xl.cf_CFO a r = Xl.VErr Xl.XlValue /\
  Xl.eq_CF a r = Xl.VErr Xl.XlValue.
Proof.
  intros Hop Hj.
  assert (Hrev : Xl.is_IntRev a r = Xl.VErr Xl.XlValue).
  { unfold Xl.is_IntRev, Xl.at_op, Xl.index. rewrite Hop.
    destruct (Z.ltb_spec 0 (2 * j)) as [_|L]; [|lia].
    destruct (Z.leb_spec 1 (2 * j)) as [_|L]; [|lia].
    destruct (Z.leb_spec (2 * j) 240) as [_|L]; [|lia].
    simpl andb. cbv iota.
    replace (Z.to_nat (2 * j) + 1)%nat with (2 * (Z.to_nat j - 1) + 3)%nat
      by lia.
    apply tr_Int_odd_rows. }
  assert (Hebt : Xl.is_EBT a r = Xl.VErr Xl.XlValue)
    by (unfold Xl.is_EBT, Xl.is_EBIT, Xl.is_TotRev; now rewrite Hrev).
  assert (Htax : Xl.is_Tax a r = Xl.VErr Xl.XlValue)
    by (unfold Xl.is_Tax; now rewrite Hebt).
  assert (Hni : Xl.is_NI a r = Xl.VErr Xl.XlValue)
    by (unfold Xl.is_NI; now rewrite Hebt).
  assert (Hcfo : Xl.cf_CFO a r = Xl.VErr Xl.XlValue)
    by (unfold Xl.cf_CFO; now rewrite Hni).
  repeat split; try assumption.
  unfold Xl.eq_CF. unfold Xl.is_OpIndex in Hop.
  destruct (Z.ltb_spec (BuildMonths a) (Xl.colA r)) as [L|G]; [|lia].
  destruct (Z.eqb_spec (Xl.colA r) (BuildMonths a)) as [E|_]; [lia|].
  now rewrite Hcfo.
Qed.

Lemma even_operating_months_error_witness :
  Xl.is_IntRev base 27 = Xl.VErr Xl.XlValue /\
  Xl.is_EBT base 27 = Xl.VErr Xl.XlValue /\
  Xl.is_Tax base 27 = Xl.VErr Xl.XlValue /\
  Xl.is_NI base 27 = Xl.VErr Xl.XlValue /\
  Xl.cf_CFO base 27 = Xl.VErr Xl.XlValue /\
  Xl.eq_CF base 27 = Xl.VErr Xl.XlValue.
Proof.
  apply (even_operating_months_error base 27 1); [reflexivity | lia].
Defined.

(** * Facts about the Python side in binary64 *)

(** A base of exactly 1.0 never reaches the C library: the power is 1.0
    for every exponent. *)
Lemma float_pow_base_one (pow : F64.libm) (w : float) :
  F64.float_pow pow 1 w = F64.Ok 1%float.
Proof.
  unfold F64.float_pow.
  destruct (w =? 0)%float; [reflexivity|].
  change (is_nan 1) with false. cbv iota.
  destruct (is_nan w); [reflexivity|].
  destruct (is_infinity w); reflexivity.
Qed.

(** An exponent of zero gives 1.0 for every base. *)
Lemma float_pow_zero_exponent (pow : F64.libm) (x : float) :
  F64.float_pow pow x 0 = F64.Ok 1%float.
Proof. reflexivity. Qed.

Lemma pmt_rounded_base_one (pow : F64.libm) (r pv : float) (n : Z)
    (w : float) :
  F64.of_int (- n) = F64.Ok w -> (1 + r)%float = 1%float ->
  F64.pmt pow r n pv = F64.Raise F64.ZeroDivisionError.
Proof.
  intros Hw H1. unfold F64.pmt. rewrite Hw. simpl F64.bind.
  rewrite H1, float_pow_base_one. reflexivity.
Qed.




(** ** Total of the level payments *)




(** ** Homogeneity in the principal *)




(** ** Parameter validation in binary64 *)

Lemma negative_float_facts (x : float) :
  (x <? 0)%float = true ->
  is_nan x = false /\ (x =? 0)%float = false.
Proof.
  unfold is_nan. rewrite ltb_spec, !eqb_spec.
  change (Prim2SF 0) with (S754_zero false).
  intros H. destruct (Prim2SF x) as [s|s| |s m e]; cbn in H;
    try discriminate H.
  - destruct s; [|discriminate H]. split; reflexivity.
  - destruct s; [|discriminate H]. split; [|reflexivity].
    unfold SFeqb, SFcompare.
    now rewrite Z.compare_refl, Pos.compare_cont_refl.
Qed.

(** A finite negative base under [** (1/12)] gives a complex number. *)
Lemma float_pow_negative_base (pow : F64.libm) (x : float) :
  (x <? 0)%float = true -> is_infinity x = false ->
  F64.float_pow pow x (1 / 12) = F64.Complex.
Proof.
  intros Hneg Hinf. destruct (negative_float_facts x Hneg) as [Hnan Hz].
  unfold F64.float_pow.
  change (1 / 12 =? 0)%float with false.
  change (is_nan (1 / 12)) with false.
  change (is_infinity (1 / 12)) with false.
  change (F64.is_integral (1 / 12)) with false.
  cbv iota. rewrite Hnan, Hinf, Hz, Hneg. reflexivity.
Qed.

(** C6, as the code has it. Nothing is validated. The two payments are
    computed from OpsMonths, EPC, the three annual rates and DebtFrac
    alone: BuildMonths, EquityFrac, OMBase, Markup and TaxRate play no
    part, so a debt fraction plus equity fraction other than 1 or a build
    duration of zero or less changes nothing. An operating duration of
    zero ends in ZeroDivisionError from the division in [pmt]. A city rate
    below -100% (finite) makes the monthly rate a complex number, with no
    exception at all. *)
Theorem summaries_unchecked (pow : F64.libm) (a : F64.Assumptions) :
  (forall bm ob mk tr ef,
     F64.summaries pow
       (F64.mkAssumptions bm (F64.OpsMonths a) (F64.EPC a) ob mk
          (F64.InflAnnual a) (F64.TownEAR a) (F64.DebtEAR a) tr
          (F64.DebtFrac a) ef)
     = F64.summaries pow a) /\
  (F64.OpsMonths a = 0%Z ->
   forall tm dm im,
     F64.monthly pow (F64.TownEAR a) = F64.Ok tm ->
     F64.monthly pow (F64.DebtEAR a) = F64.Ok dm ->
     F64.monthly pow (F64.InflAnnual a) = F64.Ok im ->
     F64.summaries pow a = F64.Raise F64.ZeroDivisionError) /\
  ((1 + F64.TownEAR a <? 0)%float = true ->
   is_infinity (1 + F64.TownEAR a) = false ->
   F64.monthly pow (F64.TownEAR a) = F64.Complex /\
   F64.summaries pow a = F64.Complex).
Proof.
  split; [intros; reflexivity|]. split.
  - intros H0 tm dm im Ht Hd Hi. unfold F64.summaries.
    rewrite Ht, Hd, Hi, H0. reflexivity.
  - intros Hneg Hinf.
    assert (Hm : F64.monthly pow (F64.TownEAR a) = F64.Complex).
    { unfold F64.monthly. now rewrite float_pow_negative_base. }
    split; [assumption|]. unfold F64.summaries. now rewrite Hm.
Qed.

Lemma summaries_unchecked_witness :
  F64.summaries F64.libm_unreached F64.no_operations
    = F64.Raise F64.ZeroDivisionError /\
  F64.summaries F64.libm_unreached F64.below_minus_one = F64.Complex.
Proof.
  split.
  - destruct (summaries_unchecked F64.libm_unreached F64.no_operations)
      as [_ [H _]].
    apply (H eq_refl 0%float 0%float 0%float); reflexivity.
  - destruct (summaries_unchecked F64.libm_unreached F64.below_minus_one)
      as [_ [_ H]].
    apply H; reflexivity.
Defined.

(** ** Tax in the even operating months *)

(** C8, on the workbook. An operating month with an even operating index
    reads an odd row of City_Receivable, whose interest is [#VALUE!]: in
    such a month EBT and tax are both [#VALUE!], so the tax is neither
    EBT times the tax rate nor zero. Month 26 of the shipped workbook
    (sheet row 27, operating index 2) is the first of the 120 such
    months. *)
Theorem tax_error_in_even_operating_months
    (a : Assumptions) (r : nat) (j : Z) :
  Xl.is_OpIndex a r = (2 * j)%Z -> (1 <= j <= 120)%Z ->
  Xl.is_EBT a r = Xl.VErr Xl.XlValue /\
  Xl.is_Tax a r = Xl.VErr Xl.XlValue /\
  Xl.is_Tax a r <> Xl.VNum 0.
Proof.
  intros Hop Hj.
  assert (Hebt : Xl.is_EBT a r = Xl.VErr Xl.XlValue).
  { unfold Xl.is_EBT, Xl.is_EBIT, Xl.is_TotRev, Xl.is_IntRev, Xl.at_op,
      Xl.index. rewrite Hop.
    destruct (Z.ltb_spec 0 (2 * j)) as [_|L]; [|lia].
    destruct (Z.leb_spec 1 (2 * j)) as [_|L]; [|lia].
    destruct (Z.leb_spec (2 * j) 240) as [_|L]; [|lia].
    simpl andb. cbv iota.
    replace (Z.to_nat (2 * j) + 1)%nat with (2 * (Z.to_nat j - 1) + 3)%nat
      by lia.
    now rewrite tr_Int_odd_rows. }
  assert (Htax : Xl.is_Tax a r = Xl.VErr Xl.XlValue)
    by (unfold Xl.is_Tax; now rewrite Hebt).
  repeat split; try assumption. rewrite Htax. discriminate.
Qed.

Lemma tax_error_in_even_operating_months_witness :
  Xl.is_EBT base 27 = Xl.VErr Xl.XlValue /\
  Xl.is_Tax base 27 = Xl.VErr Xl.XlValue /\
  Xl.is_Tax base 27 <> Xl.VNum 0.
Proof.
  apply (tax_error_in_even_operating_months base 27 1); [reflexivity | lia].
Defined.

(** * Further facts about the Python side in binary64 *)

(** X22. With zero periods [pmt] raises ZeroDivisionError for every rate
    and every principal, NaN and infinities included, without consulting
    the C library: the power is 1.0 and the denominator 0.0. *)
Theorem pmt_zero_periods_raises (pow : F64.libm) (r pv : float) :
  F64.pmt pow r 0 pv = F64.Raise F64.ZeroDivisionError.
Proof.
  unfold F64.pmt.
  change (F64.of_int (- 0)) with (@F64.Ok float 0%float).
  unfold F64.bind. rewrite float_pow_zero_exponent. reflexivity.
Qed.

(** X23. A city rate so small that [1 + TownEAR] is 1.0 in binary64 (zero,
    or positive up to 2^-53) gives a monthly rate of exactly 0.0 at line
    27, and the run then stops at line 35 with ZeroDivisionError, provided
    the other two monthly rates were computed and the operating months
    convert to a float. *)
Theorem rounded_city_rate_stops_run
    (pow : F64.libm) (a : F64.Assumptions) (w dm im : float) :
  (1 + F64.TownEAR a)%float = 1%float ->
  F64.of_int (- F64.OpsMonths a) = F64.Ok w ->
  F64.monthly pow (F64.DebtEAR a) = F64.Ok dm ->
  F64.monthly pow (F64.InflAnnual a) = F64.Ok im ->
  F64.monthly pow (F64.TownEAR a) = F64.Ok 0%float /\
  F64.summaries pow a = F64.Raise F64.ZeroDivisionError.
Proof.
  intros H1 Hw Hd Hi.
  assert (Hm : F64.monthly pow (F64.TownEAR a) = F64.Ok 0%float).
  { unfold F64.monthly. rewrite H1, float_pow_base_one. reflexivity. }
  split; [assumption|].
  unfold F64.summaries. rewrite Hm, Hd, Hi. simpl F64.bind.
  rewrite (pmt_rounded_base_one pow 0 (F64.EPC a) (F64.OpsMonths a) w);
    [reflexivity | assumption | reflexivity].
Qed.

Lemma rounded_city_rate_stops_run_witness :
  F64.monthly F64.libm_unreached
    (F64.TownEAR
       (F64.mkAssumptions 24 240 62000000 325000 0 0 F64.rate_1e_20 0 0 1 0))
    = F64.Ok 0%float /\
  F64.summaries F64.libm_unreached
    (F64.mkAssumptions 24 240 62000000 325000 0 0 F64.rate_1e_20 0 0 1 0)
    = F64.Raise F64.ZeroDivisionError.
Proof.
  apply (rounded_city_rate_stops_run F64.libm_unreached
           (F64.mkAssumptions 24 240 62000000 325000 0 0
              F64.rate_1e_20 0 0 1 0)
           (- (240)) 0 0);
    vm_compute; reflexivity.
Defined.
